(** * The message-bus client of cortx py-utils

    A shallow embedding of
    [py-utils/src/utils/message_bus/message_bus_client.py]: the class
    [MessageBusClient], its three subclasses [MessageBusAdmin],
    [MessageProducer] and [MessageConsumer], and the properties of the
    configuration accessor, of the message conversion and of the calls made
    to the [MessageBus] backend. *)

From stdpp Require Import gmap strings list fin_maps.
From Stdlib Require Import ZArith.

Set Warnings "-register-all,-clear-no-such-hyp".

(** ** Python values *)

(** Modelled from the spec: the class [KvPayload] of [cortx.utils.kv_store]
    is imported by the client but is not part of these sources.  The spec
    describes it as "a structured key-value document exposing a
    JSON-equivalent serialization"; the client reads nothing of it but the
    attribute [json], so a payload is represented by that attribute. *)
Record KvPayload : Type := { json : string }.

(** The values that reach the client: identifiers, flags, counts, lists of
    message types, keyword dictionaries, payload documents, and any other
    object, which the client can only pass on (a float timeout, say). *)
Inductive pyval : Type :=
| VNone
| VBool (b : bool)
| VInt (z : Z)
| VStr (s : string)
| VList (l : list pyval)
| VDict (d : gmap string pyval)
| VKvPayload (p : KvPayload)
| VObject (repr : string).

(** [isinstance(message, KvPayload)] and [isinstance(message, str)]. *)
Definition isinstance_KvPayload (v : pyval) : bool :=
  match v with VKvPayload _ => true | _ => false end.

Definition isinstance_str (v : pyval) : bool :=
  match v with VStr _ => true | _ => false end.

(** The constants of Python's [errno] module that the client uses. *)
Module errno.
Definition ENOENT : Z := 2.
Definition EINVAL : Z := 22.
End errno.

(** ** Exceptions and the state-and-exception monad *)

(** [MessageBusError(rc, desc, *args)] is the error of the message bus;
    [TypeError] is what a call that leaves out a required argument raises;
    [KeyError] is what [d[key]] raises on an absent key; the backend may
    raise any other exception. *)
Inductive exn : Type :=
| MessageBusError (rc : Z) (desc : string) (args : list pyval)
| TypeError (msg : string)
| KeyError (key : pyval)
| Exception (cls : string) (args : list pyval).

Inductive result (A : Type) : Type :=
| Ok (a : A)
| Raise (e : exn).
Arguments Ok {A} a.
Arguments Raise {A} e.

Definition M (S A : Type) : Type := S → result A * S.

Definition ret {S A : Type} (a : A) : M S A := λ s, (Ok a, s).

Definition raise {S A : Type} (e : exn) : M S A := λ s, (Raise e, s).

Definition bind {S A B : Type} (m : M S A) (k : A → M S B) : M S B :=
  λ s, match m s with
       | (Ok a, s') => k a s'
       | (Raise e, s') => (Raise e, s')
       end.

#[global] Instance M_ret (S : Type) : MRet (M S) := λ A, @ret S A.
#[global] Instance M_bind (S : Type) : MBind (M S) := λ A B k m, bind m k.

(** A pure computation that may raise, run inside [M]. *)
Definition lift_result {S A : Type} (r : result A) : M S A := λ s, (r, s).

(** ** The world outside the client: the backend and the log *)

(** A call of one of the class methods of [MessageBus], with its actual
    arguments in the order of the call. *)
Inductive bus_call : Type :=
| InitClient (client_type : string) (client_conf : gmap string pyval)
| ListMessageTypes (client_id : pyval)
| RegisterMessageType (client_id message_types partitions : pyval)
| DeregisterMessageType (client_id message_types : pyval)
| AddConcurrency (client_id message_type concurrency_count : pyval)
| Send (client_id message_type method : pyval) (messages : list pyval)
| Delete (client_id message_type : pyval)
| SetMessageTypeExpire (client_id message_type : pyval)
    (kwargs : gmap string pyval)
| Receive (client_id timeout : pyval)
| Ack (client_id : pyval).

(** A piece of an f-string: literal text or an interpolated value. *)
Inductive fpart : Type :=
| Lit (s : string)
| Interp (v : pyval).

Inductive log_level : Type := DEBUG | INFO | ERROR.

Record log_record : Type := { level : log_level; message : list fpart }.

(** The backend is not part of the client: it is any function from the
    calls made so far and the present call to a returned value or a raised
    exception.  The world records, in order, every call made to it and
    every line written to the log. *)
Record World : Type := {
  backend : list bus_call → bus_call → result pyval;
  calls : list bus_call;
  log : list log_record
}.

Module MessageBus.
Definition invoke (c : bus_call) : M World pyval :=
  λ w, (backend w (calls w) c,
        {| backend := backend w; calls := calls w ++ [c]; log := log w |}).

Definition init_client (client_type : string)
    (client_conf : gmap string pyval) : M World pyval :=
  invoke (InitClient client_type client_conf).
Definition list_message_types (client_id : pyval) : M World pyval :=
  invoke (ListMessageTypes client_id).
Definition register_message_type (client_id message_types partitions : pyval)
    : M World pyval :=
  invoke (RegisterMessageType client_id message_types partitions).
Definition deregister_message_type (client_id message_types : pyval)
    : M World pyval :=
  invoke (DeregisterMessageType client_id message_types).
Definition add_concurrency (client_id message_type concurrency_count : pyval)
    : M World pyval :=
  invoke (AddConcurrency client_id message_type concurrency_count).
Definition send (client_id message_type method : pyval)
    (messages : list pyval) : M World pyval :=
  invoke (Send client_id message_type method messages).
Definition delete (client_id message_type : pyval) : M World pyval :=
  invoke (Delete client_id message_type).
Definition set_message_type_expire (client_id message_type : pyval)
    (kwargs : gmap string pyval) : M World pyval :=
  invoke (SetMessageTypeExpire client_id message_type kwargs).
Definition receive (client_id timeout : pyval) : M World pyval :=
  invoke (Receive client_id timeout).
Definition ack (client_id : pyval) : M World pyval :=
  invoke (Ack client_id).
End MessageBus.

Module Log.
Definition write (lvl : log_level) (msg : list fpart) : M World unit :=
  λ w, (Ok tt,
        {| backend := backend w; calls := calls w;
           log := log w ++ [{| level := lvl; message := msg |}] |}).

Definition debug : list fpart → M World unit := write DEBUG.
Definition info : list fpart → M World unit := write INFO.
Definition error : list fpart → M World unit := write ERROR.
End Log.

(** ** class MessageBusClient *)

(** An instance has one attribute, the keyword dictionary it was built
    with. *)
Record MessageBusClient : Type := { _client_conf : gmap string pyval }.

(** A method runs on its instance and on the world. *)
Record State : Type := { self : MessageBusClient; world : World }.

Definition get_self : M State MessageBusClient := λ s, (Ok (self s), s).

Definition in_world {A : Type} (m : M World A) : M State A :=
  λ s, let '(r, w) := m (world s) in (r, {| self := self s; world := w |}).

(** [d[key]]. *)
Definition getitem (d : gmap string pyval) (key : string) : result pyval :=
  match d !! key with
  | Some v => Ok v
  | None => Raise (KeyError (VStr key))
  end.

(** [MessageBusClient(client_type, **client_conf)]: the instance exists
    once [__init__] has returned. *)
Definition __init__ (client_type : string) (client_conf : gmap string pyval)
    : M World MessageBusClient :=
  MessageBus.init_client client_type client_conf;;
  let self := {| _client_conf := client_conf |} in
  Log.debug [Lit "MessageBusClient: initialized with arguments client_type: ";
             Interp (VStr client_type); Lit ", kwargs: ";
             Interp (VDict client_conf)];;
  mret self.

Definition _get_conf (key : string) : M State pyval :=
  self ← get_self;
  if bool_decide (key ∉ dom (_client_conf self)) then
    in_world (Log.error
      [Lit "MessageBusError: "; Interp (VInt errno.ENOENT);
       Lit ". Could not find key "; Interp (VStr key);
       Lit " in client config "; Interp (VDict (_client_conf self))]);;
    raise (MessageBusError errno.ENOENT
             "Could not find key %s in client config %s"
             [VStr key; VDict (_client_conf self)])
  else lift_result (getitem (_client_conf self) key).

Definition list_message_types : M State pyval :=
  client_id ← _get_conf "client_id";
  in_world (MessageBus.list_message_types client_id).

Definition register_message_type (message_types partitions : pyval)
    : M State pyval :=
  client_id ← _get_conf "client_id";
  in_world (MessageBus.register_message_type client_id message_types
              partitions);;
  mret VNone.

Definition deregister_message_type (message_types : pyval) : M State pyval :=
  client_id ← _get_conf "client_id";
  in_world (MessageBus.deregister_message_type client_id message_types);;
  mret VNone.

Definition add_concurrency (message_type concurrency_count : pyval)
    : M State pyval :=
  client_id ← _get_conf "client_id";
  in_world (MessageBus.add_concurrency client_id message_type
              concurrency_count);;
  mret VNone.

(** The loop of [_get_str_message_list]: [message_list] is the list built
    so far, to which each converted message is appended. *)
Fixpoint _get_str_message_loop (messages message_list : list pyval)
    : result (list pyval) :=
  match messages with
  | [] => Ok message_list
  | message :: messages =>
      let message :=
        match message with
        | VKvPayload p => VStr (json p)
        | _ => message
        end in
      if negb (isinstance_str message) then
        Raise (MessageBusError errno.EINVAL
          "Invalid message format,                     not of type KvPayload or str. %s"
          [message])
      else _get_str_message_loop messages (message_list ++ [message])
  end.

Definition _get_str_message_list (messages : list pyval)
    : result (list pyval) :=
  _get_str_message_loop messages [].

Definition send (messages : list pyval) : M State pyval :=
  message_type ← _get_conf "message_type";
  method ← _get_conf "method";
  client_id ← _get_conf "client_id";
  messages ← lift_result (_get_str_message_list messages);
  in_world (MessageBus.send client_id message_type method messages);;
  mret VNone.

Definition delete : M State pyval :=
  message_type ← _get_conf "message_type";
  client_id ← _get_conf "client_id";
  in_world (MessageBus.delete client_id message_type).

Definition set_message_type_expire (message_type : pyval)
    (kwargs : gmap string pyval) : M State pyval :=
  client_id ← _get_conf "client_id";
  status ← in_world (MessageBus.set_message_type_expire client_id
                       message_type kwargs);
  in_world (Log.info [Lit "Successfully updated "; Interp message_type;
                      Lit " with new configuration."]);;
  mret status.

(** [timeout] is [None] when the caller leaves it out. *)
Definition receive (timeout : option pyval) : M State pyval :=
  let timeout := default VNone timeout in
  client_id ← _get_conf "client_id";
  in_world (MessageBus.receive client_id timeout).

Definition ack : M State pyval :=
  client_id ← _get_conf "client_id";
  in_world (MessageBus.ack client_id);;
  mret VNone.

(** ** The three subclasses *)

(** Each subclass only defines [__init__], which calls the one of
    [MessageBusClient] with its own keyword arguments.  An argument that has
    a default in the signature is an [option]: [None] when the caller leaves
    it out. *)
Definition MessageBusAdmin (admin_id : pyval) : M World MessageBusClient :=
  __init__ "admin" {[ "client_id" := admin_id ]}.

Definition MessageProducer (producer_id message_type : pyval)
    (method : option pyval) : M World MessageBusClient :=
  let method := default VNone method in
  __init__ "producer"
    (<["client_id" := producer_id]>
       (<["message_type" := message_type]> {[ "method" := method ]})).

(** The signature of [MessageConsumer.__init__] gives [offset] no default,
    although its docstring calls "earliest" the default: a call without
    [offset] does not bind its arguments and raises [TypeError] before the
    body runs. *)
Definition MessageConsumer (consumer_id consumer_group auto_ack
    message_types : pyval) (offset : option pyval)
    : M World MessageBusClient :=
  match offset with
  | None =>
      raise (TypeError
        "__init__() missing 1 required positional argument: 'offset'")
  | Some offset =>
      __init__ "consumer"
        (<["client_id" := consumer_id]>
           (<["consumer_group" := consumer_group]>
              (<["message_types" := message_types]>
                 (<["auto_ack" := auto_ack]> {[ "offset" := offset ]}))))
  end.

(** ** Roles, operations and runs *)

Inductive Role : Type := administrator | producer | consumer.

(** The [client_type] each subclass passes on. *)
Definition client_type_of (r : Role) : string :=
  match r with
  | administrator => "admin"
  | producer => "producer"
  | consumer => "consumer"
  end.

(** The keys each subclass puts in the configuration. *)
Definition required_keys (r : Role) : gset string :=
  match r with
  | administrator => {[ "client_id" ]}
  | producer => {[ "client_id"; "message_type"; "method" ]}
  | consumer =>
      {[ "client_id"; "consumer_group"; "message_types"; "auto_ack";
         "offset" ]}
  end.

(** A call of one of the public methods, with its arguments. *)
Inductive operation : Type :=
| op_list_message_types
| op_register_message_type (message_types partitions : pyval)
| op_deregister_message_type (message_types : pyval)
| op_add_concurrency (message_type concurrency_count : pyval)
| op_send (messages : list pyval)
| op_delete
| op_set_message_type_expire (message_type : pyval)
    (kwargs : gmap string pyval)
| op_receive (timeout : option pyval)
| op_ack.

Definition run_op (op : operation) : M State pyval :=
  match op with
  | op_list_message_types => list_message_types
  | op_register_message_type message_types partitions =>
      register_message_type message_types partitions
  | op_deregister_message_type message_types =>
      deregister_message_type message_types
  | op_add_concurrency message_type concurrency_count =>
      add_concurrency message_type concurrency_count
  | op_send messages => send messages
  | op_delete => delete
  | op_set_message_type_expire message_type kwargs =>
      set_message_type_expire message_type kwargs
  | op_receive timeout => receive timeout
  | op_ack => ack
  end.

(** The keys a method reads, in the order it reads them. *)
Definition keys_read (op : operation) : list string :=
  match op with
  | op_send _ => ["message_type"; "method"; "client_id"]
  | op_delete => ["message_type"; "client_id"]
  | _ => ["client_id"]
  end.

(** A caller runs operations one after the other on the same instance,
    whatever each returns or raises. *)
Fixpoint run_ops (ops : list operation) (s : State) : State :=
  match ops with
  | [] => s
  | op :: ops => run_ops ops (run_op op s).2
  end.

(** A computation that leaves the instance as it found it. *)
Definition preserves_self {A : Type} (m : M State A) : Prop :=
  ∀ s, self (m s).2 = self s.

(** The two uses of [MessageBusError] in the client, under the names the
    specification gives them. *)
Definition ConfigKeyMissing (key : string) (conf : gmap string pyval) : exn :=
  MessageBusError errno.ENOENT "Could not find key %s in client config %s"
    [VStr key; VDict conf].

Definition InvalidMessageFormat (message : pyval) : exn :=
  MessageBusError errno.EINVAL
    "Invalid message format,                     not of type KvPayload or str. %s"
    [message].

(** A message the conversion accepts, and what it becomes. *)
Definition is_message (v : pyval) : bool :=
  isinstance_KvPayload v || isinstance_str v.

Definition to_str (v : pyval) : pyval :=
  match v with
  | VKvPayload p => VStr (json p)
  | _ => v
  end.

(** A backend for tests: it accepts every call, answers [receive] and
    [list_message_types] with an empty list and everything else with
    [None], and the world records the calls. *)
Definition fake_backend (history : list bus_call) (c : bus_call)
    : result pyval :=
  match c with
  | ListMessageTypes _ | Receive _ _ => Ok (VList [])
  | _ => Ok VNone
  end.

Definition fake_world : World :=
  {| backend := fake_backend; calls := []; log := [] |}.

(** A backend that refuses every client. *)
Definition refusing_world : World :=
  {| backend := λ _ _, Raise (Exception "BackendInitError" []);
     calls := []; log := [] |}.

(** The clients of the examples: the administrator "a1", the producer "p1"
    of "Alert" with method "sync", the same producer built without a method,
    and a producer configuration that lacks [message_type]. *)
Definition a1_conf : gmap string pyval := {[ "client_id" := VStr "a1" ]}.

Definition p1_conf : gmap string pyval :=
  <["client_id" := VStr "p1"]>
    (<["message_type" := VStr "Alert"]> {[ "method" := VStr "sync" ]}).

Definition p1_conf_no_method : gmap string pyval :=
  <["client_id" := VStr "p1"]>
    (<["message_type" := VStr "Alert"]> {[ "method" := VNone ]}).

Definition p1_conf_no_message_type : gmap string pyval :=
  <["client_id" := VStr "p1"]> {[ "method" := VStr "sync" ]}.

(** The consumer "c1" of the group "g1", reading "Alert" from the latest
    offset, and a configuration that has [message_type] and nothing else. *)
Definition c1_conf : gmap string pyval :=
  <["client_id" := VStr "c1"]>
    (<["consumer_group" := VStr "g1"]>
       (<["message_types" := VList [VStr "Alert"]]>
          (<["auto_ack" := VStr "False"]> {[ "offset" := VStr "latest" ]}))).

Definition only_message_type_conf : gmap string pyval :=
  {[ "message_type" := VStr "Alert" ]}.

(** The world after the fake backend has accepted a client. *)
Definition world_after_init (client_type : string)
    (client_conf : gmap string pyval) : World :=
  (__init__ client_type client_conf fake_world).2.

(** The record [_get_conf] writes to the log when it misses a key. *)
Definition missing_key_record (key : string) (conf : gmap string pyval)
    : log_record :=
  {| level := ERROR;
     message :=
       [Lit "MessageBusError: "; Interp (VInt errno.ENOENT);
        Lit ". Could not find key "; Interp (VStr key);
        Lit " in client config "; Interp (VDict conf)] |}.

(** The client identifier that a call of a method carries to the backend,
    its first argument; [init_client] has none apart from its keywords. *)
Definition call_client_id (c : bus_call) : option pyval :=
  match c with
  | InitClient _ _ => None
  | ListMessageTypes client_id
  | RegisterMessageType client_id _ _
  | DeregisterMessageType client_id _
  | AddConcurrency client_id _ _
  | Send client_id _ _ _
  | Delete client_id _
  | SetMessageTypeExpire client_id _ _
  | Receive client_id _
  | Ack client_id => Some client_id
  end.

(** A computation that makes at most [n] calls to the backend: it appends
    them to the calls made before, appends its lines to the log, and leaves
    the backend as it is. *)
Definition extends_world {A : Type} (n : nat) (m : M State A) : Prop :=
  ∀ s, ∃ new lines,
    calls (world (m s).2) = calls (world s) ++ new ∧
    length new ≤ n ∧
    log (world (m s).2) = log (world s) ++ lines ∧
    backend (world (m s).2) = backend (world s).

(** The world after one more call to the backend. *)
Definition after_call (w : World) (c : bus_call) : World :=
  {| backend := backend w; calls := calls w ++ [c]; log := log w |}.

(** [c] is an instance that one of the three subclasses returned for the
    identifier [client_id]. *)
Definition constructed (client_id : pyval) (c : MessageBusClient) : Prop :=
  ∃ w w1,
    MessageBusAdmin client_id w = (Ok c, w1) ∨
    (∃ message_type method,
       MessageProducer client_id message_type method w = (Ok c, w1)) ∨
    (∃ consumer_group auto_ack message_types offset,
       MessageConsumer client_id consumer_group auto_ack message_types
         (Some offset) w = (Ok c, w1)).

(** A call that, if it is one of the backend's [send], carries strings
    only. *)
Definition sends_strings (c : bus_call) : Prop :=
  match c with
  | Send _ _ _ messages => Forall (λ m, isinstance_str m = true) messages
  | _ => True
  end.

(** ** The accessor *)

Lemma bind_run {S A B : Type} (m : M S A) (k : A → M S B) (s : S) :
  (m ≫= k) s =
  match m s with
  | (Ok a, s') => k a s'
  | (Raise e, s') => (Raise e, s')
  end.
Proof. reflexivity. Qed.

Lemma _get_conf_present (s : State) (key : string) (v : pyval) :
  _client_conf (self s) !! key = Some v →
  _get_conf key s = (Ok v, s).
Proof.
  intros Hv. unfold _get_conf. rewrite bind_run. cbn.
  rewrite bool_decide_eq_false_2.
  - unfold lift_result, getitem. by rewrite Hv.
  - intros Hn. apply Hn, elem_of_dom. by exists v.
Qed.

Lemma _get_conf_absent (s : State) (key : string) :
  _client_conf (self s) !! key = None →
  ∃ w', _get_conf key s =
          (Raise (ConfigKeyMissing key (_client_conf (self s))),
           {| self := self s; world := w' |}) ∧
        backend w' = backend (world s) ∧ calls w' = calls (world s).
Proof.
  intros Hv. unfold _get_conf. rewrite bind_run. cbn.
  rewrite bool_decide_eq_true_2.
  - rewrite bind_run. cbn. eexists. split; [reflexivity|]. by cbn.
  - by apply not_elem_of_dom.
Qed.

Lemma get_conf_present_iff (s : State) (key : string) (v : pyval) :
  (_get_conf key s).1 = Ok v ↔ _client_conf (self s) !! key = Some v.
Proof.
  destruct (_client_conf (self s) !! key) as [v0|] eqn:Hl.
  - rewrite (_get_conf_present s key v0 Hl). cbn. split; congruence.
  - destruct (_get_conf_absent s key Hl) as (w' & -> & _). cbn.
    split; congruence.
Qed.

(** C1. For every configuration and every key, [_get_conf key] returns a
    value exactly when the configuration maps the key to that value, and
    raises the missing-key error exactly when the key is absent; it raises
    nothing else, and the error it raises carries the key it looked for as
    its first argument. *)
Theorem get_conf_present_iff_absent_iff (s : State) (key : string) :
  (∀ v, (_get_conf key s).1 = Ok v ↔ _client_conf (self s) !! key = Some v) ∧
  ((_get_conf key s).1 = Raise (ConfigKeyMissing key (_client_conf (self s)))
     ↔ _client_conf (self s) !! key = None) ∧
  (∀ e, (_get_conf key s).1 = Raise e ↔
        _client_conf (self s) !! key = None ∧
        e = MessageBusError errno.ENOENT
              "Could not find key %s in client config %s"
              [VStr key; VDict (_client_conf (self s))]).
Proof.
  split; [intros v; apply get_conf_present_iff|].
  destruct (_client_conf (self s) !! key) as [v0|] eqn:Hl.
  - rewrite (_get_conf_present s key v0 Hl). cbn.
    split; [split; congruence|].
    intros e; split; [congruence|]. by intros [? _].
  - destruct (_get_conf_absent s key Hl) as (w' & -> & _). cbn.
    split; [done|].
    intros e; split; [|intros [_ ->]; done].
    intros [= <-]. done.
Qed.

(** ** The conversion of messages *)

Lemma to_str_is_str (m : pyval) :
  is_message m = true → isinstance_str (to_str m) = true.
Proof. by destruct m. Qed.

Lemma to_str_of_str (m : pyval) : isinstance_str m = true → to_str m = m.
Proof. by destruct m. Qed.

Lemma loop_all_valid (messages message_list : list pyval) :
  Forall (λ m, is_message m = true) messages →
  _get_str_message_loop messages message_list =
    Ok (message_list ++ (to_str <$> messages)).
Proof.
  intros Hall. revert message_list.
  induction Hall as [|m ms Hm _ IH]; intros acc; cbn.
  - by rewrite app_nil_r.
  - fold (to_str m). rewrite (to_str_is_str m Hm). cbn.
    rewrite IH, <- app_assoc. reflexivity.
Qed.

Lemma loop_first_invalid (pre post message_list : list pyval) (bad : pyval) :
  Forall (λ m, is_message m = true) pre →
  is_message bad = false →
  _get_str_message_loop (pre ++ bad :: post) message_list =
    Raise (InvalidMessageFormat bad).
Proof.
  intros Hall Hbad. revert message_list.
  induction Hall as [|m ms Hm _ IH]; intros acc; cbn.
  - destruct bad; try discriminate; reflexivity.
  - fold (to_str m). rewrite (to_str_is_str m Hm). cbn. apply IH.
Qed.

(** Every batch with an invalid element splits at its first one. *)
Lemma split_at_first_invalid (messages : list pyval) :
  Exists (λ m, is_message m = false) messages →
  ∃ pre bad post,
    messages = pre ++ bad :: post ∧
    Forall (λ m, is_message m = true) pre ∧ is_message bad = false.
Proof.
  induction messages as [|m ms IH]; intros Hex.
  - inversion Hex.
  - destruct (is_message m) eqn:Hm.
    + destruct IH as (pre & bad & post & -> & Hpre & Hbad).
      { inversion Hex; subst; [congruence|done]. }
      exists (m :: pre), bad, post. split; [done|]. split; [|done].
      by constructor.
    + exists [], m, ms. split; [done|]. split; [constructor|done].
Qed.

(** C5. On a batch whose elements are all documents or strings, the
    conversion returns one string per message, in the order of the batch:
    the serialization of each document and each string itself; on a batch
    of strings it returns the batch. *)
Theorem get_str_message_list_valid_batch (messages : list pyval) :
  Forall (λ m, is_message m = true) messages →
  ∃ out,
    _get_str_message_list messages = Ok out ∧
    length out = length messages ∧
    Forall (λ m, isinstance_str m = true) out ∧
    (∀ i p, messages !! i = Some (VKvPayload p) →
            out !! i = Some (VStr (json p))) ∧
    (∀ i s, messages !! i = Some (VStr s) → out !! i = Some (VStr s)) ∧
    (Forall (λ m, isinstance_str m = true) messages → out = messages).
Proof.
  intros Hall. exists (to_str <$> messages).
  split; [apply (loop_all_valid messages [] Hall)|].
  split; [by rewrite length_fmap|].
  split.
  { rewrite Forall_fmap. eapply Forall_impl; [exact Hall|].
    intros m Hm. by apply to_str_is_str. }
  split; [intros i p Hi; by rewrite list_lookup_fmap, Hi|].
  split; [intros i s Hi; by rewrite list_lookup_fmap, Hi|].
  intros Hstr. clear Hall.
  induction Hstr as [|m ms Hm _ IH]; [done|].
  cbn. by rewrite IH, (to_str_of_str m Hm).
Qed.

(** ** Calls to the backend *)

Lemma in_world_invoke (s : State) (c : bus_call) :
  in_world (MessageBus.invoke c) s =
    (backend (world s) (calls (world s)) c,
     {| self := self s;
        world := {| backend := backend (world s);
                    calls := calls (world s) ++ [c];
                    log := log (world s) |} |}).
Proof. reflexivity. Qed.

(** Case analysis on the next key a method reads: either the accessor
    returns its value and leaves the state alone, or it raises and only the
    log has grown. *)
Ltac read_key :=
  lazymatch goal with
  | |- context [_get_conf ?k ?s] =>
      let H := fresh "Hkey" in
      let w' := fresh "w'" in
      destruct (_client_conf (self s) !! k) eqn:H;
      [ rewrite (_get_conf_present s k _ H)
      | destruct (_get_conf_absent s k H) as (w' & -> & ? & ?) ]
  end.

(** A method that finds one of its keys missing raises the missing-key error
    for the first such key and has made no call. *)
Lemma run_op_missing_key (op : operation) (s : State) :
  (∃ k, k ∈ keys_read op ∧ _client_conf (self s) !! k = None) →
  ∃ k w',
    k ∈ keys_read op ∧ _client_conf (self s) !! k = None ∧
    run_op op s =
      (Raise (ConfigKeyMissing k (_client_conf (self s))),
       {| self := self s; world := w' |}) ∧
    backend w' = backend (world s) ∧ calls w' = calls (world s).
Proof.
  intros (k & Hk & Hnone).
  assert (Hfail : ∀ k0 w', k0 ∈ keys_read op →
            _client_conf (self s) !! k0 = None →
            backend w' = backend (world s) → calls w' = calls (world s) →
            ∃ k1 w1, k1 ∈ keys_read op ∧ _client_conf (self s) !! k1 = None ∧
              (Raise (ConfigKeyMissing k0 (_client_conf (self s))) : result pyval,
               {| self := self s; world := w' |}) =
              (Raise (ConfigKeyMissing k1 (_client_conf (self s))),
               {| self := self s; world := w1 |}) ∧
              backend w1 = backend (world s) ∧ calls w1 = calls (world s)).
  { intros k0 w' ????. by exists k0, w'. }
  destruct op; cbn [run_op keys_read] in *;
    unfold list_message_types, register_message_type, deregister_message_type,
      add_concurrency, send, delete, set_message_type_expire, receive, ack;
    rewrite bind_run;
    repeat (read_key;
            [ try (rewrite bind_run)
            | apply Hfail; [set_solver|done..] ]);
    exfalso; set_solver.
Qed.

(** With its three keys present, [send] converts the batch and, if the
    conversion succeeds, makes one call of the backend's [send]. *)
Lemma send_with_keys (s : State) (messages : list pyval)
    (message_type method client_id : pyval) :
  _client_conf (self s) !! "message_type" = Some message_type →
  _client_conf (self s) !! "method" = Some method →
  _client_conf (self s) !! "client_id" = Some client_id →
  send messages s =
    match _get_str_message_list messages with
    | Raise e => (Raise e, s)
    | Ok out =>
        (match backend (world s) (calls (world s))
                 (Send client_id message_type method out) with
         | Ok _ => Ok VNone
         | Raise e => Raise e
         end,
         {| self := self s;
            world := {| backend := backend (world s);
                        calls := calls (world s) ++
                                   [Send client_id message_type method out];
                        log := log (world s) |} |})
    end.
Proof.
  intros Hmt Hm Hc. unfold send.
  rewrite bind_run, (_get_conf_present s _ _ Hmt).
  rewrite bind_run, (_get_conf_present s _ _ Hm).
  rewrite bind_run, (_get_conf_present s _ _ Hc).
  rewrite bind_run. unfold lift_result.
  destruct (_get_str_message_list messages) as [out|e]; [|done].
  rewrite bind_run. unfold MessageBus.send. rewrite in_world_invoke.
  by destruct (backend _ _ _).
Qed.

(** ** The instance is only read *)

Section preserves_self.
Local Lemma preserves_ret {A : Type} (a : A) : preserves_self (mret a).
Proof. by intros s. Qed.

Local Lemma preserves_raise {A : Type} (e : exn) :
  preserves_self (raise e : M State A).
Proof. by intros s. Qed.

Local Lemma preserves_lift_result {A : Type} (r : result A) :
  preserves_self (lift_result r).
Proof. by intros s. Qed.

Local Lemma preserves_get_self : preserves_self get_self.
Proof. by intros s. Qed.

Local Lemma preserves_in_world {A : Type} (m : M World A) :
  preserves_self (in_world m).
Proof. intros s. unfold in_world. by destruct (m (world s)). Qed.

Local Lemma preserves_bind {A B : Type} (m : M State A) (k : A → M State B) :
  preserves_self m → (∀ a, preserves_self (k a)) →
  preserves_self (m ≫= k).
Proof.
  intros Hm Hk s. rewrite bind_run. specialize (Hm s).
  destruct (m s) as [[a|e] s']; cbn in *; [|done].
  by rewrite Hk.
Qed.

Local Lemma preserves_get_conf (key : string) :
  preserves_self (_get_conf key).
Proof.
  unfold _get_conf. apply preserves_bind; [apply preserves_get_self|].
  intros c. case_bool_decide.
  - apply preserves_bind; [apply preserves_in_world|].
    intros _. apply preserves_raise.
  - apply preserves_lift_result.
Qed.

Create HintDb preserves.
Local Hint Resolve preserves_ret preserves_raise preserves_lift_result
  preserves_in_world preserves_get_conf : preserves.

Local Ltac preserves :=
  repeat first
    [ solve [auto with preserves]
    | apply preserves_bind; [|intros ?] ].

Lemma run_op_self (op : operation) (s : State) :
  self (run_op op s).2 = self s.
Proof.
  revert s. change (preserves_self (run_op op)).
  destruct op; cbn [run_op];
    unfold list_message_types, register_message_type,
      deregister_message_type, add_concurrency, send, delete,
      set_message_type_expire, receive, ack; preserves.
Qed.
End preserves_self.

Lemma run_ops_self (ops : list operation) (s : State) :
  self (run_ops ops s) = self s.
Proof.
  revert s. induction ops as [|op ops IH]; intros s; cbn; [done|].
  by rewrite IH, run_op_self.
Qed.

(** ** Construction *)

Lemma init_runs (client_type : string) (client_conf : gmap string pyval)
    (w : World) :
  __init__ client_type client_conf w =
    match backend w (calls w) (InitClient client_type client_conf) with
    | Ok _ =>
        (Ok {| _client_conf := client_conf |},
         {| backend := backend w;
            calls := calls w ++ [InitClient client_type client_conf];
            log := log w ++
              [{| level := DEBUG;
                  message :=
                    [Lit "MessageBusClient: initialized with arguments client_type: ";
                     Interp (VStr client_type); Lit ", kwargs: ";
                     Interp (VDict client_conf)] |}] |})
    | Raise e =>
        (Raise e,
         {| backend := backend w;
            calls := calls w ++ [InitClient client_type client_conf];
            log := log w |})
    end.
Proof.
  unfold __init__. rewrite bind_run.
  unfold MessageBus.init_client, MessageBus.invoke.
  by destruct (backend w (calls w) _).
Qed.

Lemma init_conf (client_type : string) (client_conf : gmap string pyval)
    (w w1 : World) (c : MessageBusClient) :
  __init__ client_type client_conf w = (Ok c, w1) →
  _client_conf c = client_conf.
Proof.
  rewrite init_runs. destruct (backend w (calls w) _); [|done].
  by intros [= <- _].
Qed.

Lemma init_calls (client_type : string) (client_conf : gmap string pyval)
    (w : World) :
  calls (__init__ client_type client_conf w).2 =
    calls w ++ [InitClient client_type client_conf].
Proof. rewrite init_runs. by destruct (backend w (calls w) _). Qed.

Lemma admin_conf (admin_id : pyval) (w w1 : World) (c : MessageBusClient) :
  MessageBusAdmin admin_id w = (Ok c, w1) →
  _client_conf c = {[ "client_id" := admin_id ]}.
Proof. apply init_conf. Qed.

Lemma producer_conf (producer_id message_type : pyval)
    (method : option pyval) (w w1 : World) (c : MessageBusClient) :
  MessageProducer producer_id message_type method w = (Ok c, w1) →
  _client_conf c !! "client_id" = Some producer_id ∧
  _client_conf c !! "message_type" = Some message_type ∧
  _client_conf c !! "method" = Some (default VNone method) ∧
  dom (_client_conf c) = required_keys producer.
Proof.
  intros Hc. apply init_conf in Hc. rewrite Hc.
  split_and!; [by simplify_map_eq..|].
  rewrite !dom_insert_L, dom_singleton_L. cbn. set_solver.
Qed.

(** With [offset] supplied, the configuration of a consumer has the five
    keys of its role, each with the argument given for it. *)
Lemma consumer_conf (consumer_id consumer_group auto_ack message_types
    offset : pyval) (w w1 : World) (c : MessageBusClient) :
  MessageConsumer consumer_id consumer_group auto_ack message_types
    (Some offset) w = (Ok c, w1) →
  _client_conf c !! "client_id" = Some consumer_id ∧
  _client_conf c !! "consumer_group" = Some consumer_group ∧
  _client_conf c !! "message_types" = Some message_types ∧
  _client_conf c !! "auto_ack" = Some auto_ack ∧
  _client_conf c !! "offset" = Some offset ∧
  dom (_client_conf c) = required_keys consumer.
Proof.
  intros Hc. apply init_conf in Hc. rewrite Hc.
  split_and!; [by simplify_map_eq..|].
  rewrite !dom_insert_L, dom_singleton_L. cbn. set_solver.
Qed.

(** ** The claims on [send] *)

(** C2. A batch with an element that is neither a document nor a string
    makes [send] raise without any call to the backend, on every client;
    on a client that has the three keys [send] reads, the error is the
    invalid-format error carrying the first such element, and the state is
    the one before the call. *)
Theorem send_invalid_batch_sends_nothing (s : State) (messages : list pyval) :
  Exists (λ m, is_message m = false) messages →
  (∃ e, (send messages s).1 = Raise e) ∧
  calls (world (send messages s).2) = calls (world s) ∧
  (is_Some (_client_conf (self s) !! "message_type") →
   is_Some (_client_conf (self s) !! "method") →
   is_Some (_client_conf (self s) !! "client_id") →
   ∃ pre bad post,
     messages = pre ++ bad :: post ∧
     Forall (λ m, is_message m = true) pre ∧ is_message bad = false ∧
     send messages s = (Raise (InvalidMessageFormat bad), s)).
Proof.
  intros Hex.
  destruct (split_at_first_invalid messages Hex)
    as (pre & bad & post & Hsplit & Hpre & Hbad).
  assert (Hkeys : ∀ message_type method client_id,
            _client_conf (self s) !! "message_type" = Some message_type →
            _client_conf (self s) !! "method" = Some method →
            _client_conf (self s) !! "client_id" = Some client_id →
            send messages s = (Raise (InvalidMessageFormat bad), s)).
  { intros mt m cid Hmt Hm Hcid.
    rewrite (send_with_keys s messages mt m cid Hmt Hm Hcid).
    unfold _get_str_message_list.
    by rewrite Hsplit, (loop_first_invalid pre post [] bad Hpre Hbad). }
  destruct (_client_conf (self s) !! "message_type") as [mt|] eqn:Hmt;
  [destruct (_client_conf (self s) !! "method") as [m|] eqn:Hm;
   [destruct (_client_conf (self s) !! "client_id") as [cid|] eqn:Hcid|]|].
  - rewrite (Hkeys mt m cid eq_refl eq_refl eq_refl). cbn.
    split; [by eexists|]. split; [done|].
    intros _ _ _. by exists pre, bad, post.
  - destruct (run_op_missing_key (op_send messages) s)
      as (k & w' & _ & _ & Hrun & _ & Hcalls).
    { exists "client_id". split; [set_solver|done]. }
    cbn [run_op] in Hrun. rewrite Hrun. cbn.
    split; [by eexists|]. split; [done|].
    intros _ _ [? ?]. done.
  - destruct (run_op_missing_key (op_send messages) s)
      as (k & w' & _ & _ & Hrun & _ & Hcalls).
    { exists "method". split; [set_solver|done]. }
    cbn [run_op] in Hrun. rewrite Hrun. cbn.
    split; [by eexists|]. split; [done|].
    intros _ [? ?]. done.
  - destruct (run_op_missing_key (op_send messages) s)
      as (k & w' & _ & _ & Hrun & _ & Hcalls).
    { exists "message_type". split; [set_solver|done]. }
    cbn [run_op] in Hrun. rewrite Hrun. cbn.
    split; [by eexists|]. split; [done|].
    intros [? ?]. done.
Qed.

(** C3. The configuration of an administrator has the key [client_id] and
    no other, so [send] on it raises the missing-key error for
    [message_type], the first key [send] reads, and the backend has received
    no call by then. *)
Theorem admin_send_missing_message_type (admin_id : pyval) (w w1 : World)
    (c : MessageBusClient) (messages : list pyval) (w2 : World) :
  MessageBusAdmin admin_id w = (Ok c, w1) →
  dom (_client_conf c) = {[ "client_id" ]} ∧
  ∃ w3,
    send messages {| self := c; world := w2 |} =
      (Raise (ConfigKeyMissing "message_type" (_client_conf c)),
       {| self := c; world := w3 |}) ∧
    calls w3 = calls w2 ∧ backend w3 = backend w2.
Proof.
  intros Hc. apply admin_conf in Hc.
  split; [by rewrite Hc, dom_singleton_L|].
  unfold send. rewrite bind_run.
  destruct (_get_conf_absent {| self := c; world := w2 |} "message_type")
    as (w3 & -> & Hb & Hcalls).
  { cbn. by rewrite Hc. }
  by exists w3.
Qed.

(** C6. A producer built with an identifier, a message type and a method
    forwards every batch of documents and strings, whenever it is sent: in
    any world, and so after any run of earlier operations on the producer,
    [send] makes exactly one call of the backend's [send], which carries the
    identifier, the message type, the method and the converted messages in
    the order of the batch, and changes nothing else; [send] returns [None]
    if the backend returns, and raises what the backend raises.  For the
    producer "p1" of "Alert" with method "sync", [send(["hello"])] is the
    call [send("p1", "Alert", "sync", ["hello"])]. *)
Theorem producer_send_forwards_batch (producer_id message_type method : pyval)
    (w w1 : World) (c : MessageBusClient) (messages : list pyval) :
  MessageProducer producer_id message_type (Some method) w = (Ok c, w1) →
  Forall (λ m, is_message m = true) messages →
  (∀ w2 : World,
     send messages {| self := c; world := w2 |} =
       (match backend w2 (calls w2)
                (Send producer_id message_type method (to_str <$> messages))
        with
        | Ok _ => Ok VNone
        | Raise e => Raise e
        end,
        {| self := c;
           world :=
             {| backend := backend w2;
                calls := calls w2 ++
                  [Send producer_id message_type method
                     (to_str <$> messages)];
                log := log w2 |} |})) ∧
  (∀ ops : list operation,
     calls (world (send messages
                     (run_ops ops {| self := c; world := w1 |})).2) =
       calls (world (run_ops ops {| self := c; world := w1 |})) ++
         [Send producer_id message_type method (to_str <$> messages)] ∧
     (send messages (run_ops ops {| self := c; world := w1 |})).1 =
       match backend (world (run_ops ops {| self := c; world := w1 |}))
               (calls (world (run_ops ops {| self := c; world := w1 |})))
               (Send producer_id message_type method (to_str <$> messages))
       with
       | Ok _ => Ok VNone
       | Raise e => Raise e
       end).
Proof.
  intros Hc Hall.
  destruct (producer_conf _ _ _ _ _ _ Hc) as (Hid & Hmt & Hm & _).
  assert (Hsend : ∀ s : State, self s = c →
            send messages s =
              (match backend (world s) (calls (world s))
                       (Send producer_id message_type method
                          (to_str <$> messages))
               with
               | Ok _ => Ok VNone
               | Raise e => Raise e
               end,
               {| self := self s;
                  world :=
                    {| backend := backend (world s);
                       calls := calls (world s) ++
                         [Send producer_id message_type method
                            (to_str <$> messages)];
                       log := log (world s) |} |})).
  { intros s Hs. rewrite <- Hs in Hid, Hmt, Hm.
    rewrite (send_with_keys s messages message_type method producer_id
               Hmt Hm Hid).
    unfold _get_str_message_list.
    by rewrite (loop_all_valid messages [] Hall). }
  split.
  - intros w2. by rewrite (Hsend {| self := c; world := w2 |} eq_refl).
  - intros ops.
    rewrite (Hsend (run_ops ops {| self := c; world := w1 |})
               (run_ops_self ops {| self := c; world := w1 |})).
    by split.
Qed.

(** C9. A producer built without a method has the key [method] in its
    configuration, with the value [None]: the accessor returns [None] for
    it, and [send] passes [None] to the backend as the method. *)
Theorem producer_default_method_is_None (producer_id message_type : pyval)
    (w w1 : World) (c : MessageBusClient) :
  MessageProducer producer_id message_type None w = (Ok c, w1) →
  _client_conf c !! "method" = Some VNone ∧
  ∀ (messages : list pyval) (w2 : World),
    _get_conf "method" {| self := c; world := w2 |} =
      (Ok VNone, {| self := c; world := w2 |}) ∧
    (Forall (λ m, is_message m = true) messages →
     ∃ r w3,
       send messages {| self := c; world := w2 |} =
         (r, {| self := c; world := w3 |}) ∧
       calls w3 =
         calls w2 ++
           [Send producer_id message_type VNone (to_str <$> messages)] ∧
       r = match backend w2 (calls w2)
                   (Send producer_id message_type VNone (to_str <$> messages))
           with
           | Ok _ => Ok VNone
           | Raise e => Raise e
           end).
Proof.
  intros Hc.
  destruct (producer_conf _ _ _ _ _ _ Hc) as (Hid & Hmt & Hm & _).
  cbn in Hm. split; [done|]. intros messages w2.
  split; [by apply _get_conf_present|]. intros Hall.
  rewrite (send_with_keys {| self := c; world := w2 |} messages
             message_type VNone producer_id Hmt Hm Hid).
  unfold _get_str_message_list. rewrite (loop_all_valid messages [] Hall).
  cbn. by eexists _, _.
Qed.

(** ** Construction and missing keys *)

(** C4, as amended.  [__init__] does not look at the keys of the
    configuration: for every role and every configuration it makes exactly
    one call, [init_client] with the client type and the configuration, and
    the instance it returns holds that configuration.  A key that is missing
    is found by the method that reads it, which then raises the missing-key
    error for it without having called the backend. *)
Theorem construction_calls_backend_keys_checked_on_read (r : Role)
    (client_conf : gmap string pyval) (w : World) :
  calls (__init__ (client_type_of r) client_conf w).2 =
    calls w ++ [InitClient (client_type_of r) client_conf] ∧
  (∀ c w1, __init__ (client_type_of r) client_conf w = (Ok c, w1) →
           _client_conf c = client_conf) ∧
  (∀ (op : operation) (w2 : World),
     (∃ k, k ∈ keys_read op ∧ client_conf !! k = None) →
     ∃ k w3,
       k ∈ keys_read op ∧ client_conf !! k = None ∧
       run_op op {| self := {| _client_conf := client_conf |}; world := w2 |} =
         (Raise (ConfigKeyMissing k client_conf),
          {| self := {| _client_conf := client_conf |}; world := w3 |}) ∧
       calls w3 = calls w2).
Proof.
  split; [apply init_calls|].
  split; [intros c w1; apply init_conf|].
  intros op w2 Hmiss.
  destruct (run_op_missing_key op
              {| self := {| _client_conf := client_conf |}; world := w2 |}
              Hmiss) as (k & w3 & Hk & Hnone & Hrun & _ & Hcalls).
  by exists k, w3.
Qed.

(** C7, at the call that leaves [offset] out: the call raises [TypeError],
    returns no consumer, and the world is as before; no configuration with
    [offset] set to "earliest" comes out of it. *)
Theorem consumer_without_offset_raises (consumer_id consumer_group auto_ack
    message_types : pyval) (w : World) :
  MessageConsumer consumer_id consumer_group auto_ack message_types None w =
    (Raise (TypeError
       "__init__() missing 1 required positional argument: 'offset'"), w).
Proof. reflexivity. Qed.

(** ** The configuration after any run *)

(** C8. The instance returned by the constructor holds the configuration it
    was given; no method changes the instance; so after any sequence of
    method calls, whatever they returned or raised, the instance holds that
    configuration and the accessor returns, for every key, the value the
    configuration was given for it. *)
Theorem configuration_fixed_at_construction (client_type : string)
    (client_conf : gmap string pyval) (w w1 : World) (c : MessageBusClient)
    (ops : list operation) :
  __init__ client_type client_conf w = (Ok c, w1) →
  _client_conf c = client_conf ∧
  (∀ (op : operation) (s : State), self (run_op op s).2 = self s) ∧
  _client_conf (self (run_ops ops {| self := c; world := w1 |})) =
    client_conf ∧
  (∀ key v,
     (_get_conf key (run_ops ops {| self := c; world := w1 |})).1 = Ok v ↔
     client_conf !! key = Some v).
Proof.
  intros Hc. apply init_conf in Hc.
  split; [done|]. split; [apply run_op_self|].
  assert (Hconf : _client_conf (self (run_ops ops {| self := c; world := w1 |}))
                  = client_conf).
  { by rewrite run_ops_self. }
  split; [done|]. intros key v. rewrite <- Hconf.
  apply get_conf_present_iff.
Qed.

(** ** Arguments passed on unchanged *)

(** C10. Once [client_id] is in the configuration, [register_message_type]
    and [add_concurrency] make one call to the backend with the value of
    [client_id] and with their own arguments as they were given: any list of
    message types, empty or with repetitions, and any integer, zero or
    negative.  They return [None] if the backend returns and raise what it
    raises. *)
Theorem register_and_concurrency_forward_arguments (s : State)
    (client_id : pyval) (message_types : list pyval) (partitions : Z)
    (message_type : pyval) (concurrency_count : Z) :
  _client_conf (self s) !! "client_id" = Some client_id →
  register_message_type (VList message_types) (VInt partitions) s =
    (match backend (world s) (calls (world s))
             (RegisterMessageType client_id (VList message_types)
                (VInt partitions)) with
     | Ok _ => Ok VNone
     | Raise e => Raise e
     end,
     {| self := self s;
        world := {| backend := backend (world s);
                    calls := calls (world s) ++
                      [RegisterMessageType client_id (VList message_types)
                         (VInt partitions)];
                    log := log (world s) |} |}) ∧
  add_concurrency message_type (VInt concurrency_count) s =
    (match backend (world s) (calls (world s))
             (AddConcurrency client_id message_type
                (VInt concurrency_count)) with
     | Ok _ => Ok VNone
     | Raise e => Raise e
     end,
     {| self := self s;
        world := {| backend := backend (world s);
                    calls := calls (world s) ++
                      [AddConcurrency client_id message_type
                         (VInt concurrency_count)];
                    log := log (world s) |} |}).
Proof.
  intros Hid. split.
  - unfold register_message_type.
    rewrite bind_run, (_get_conf_present s _ _ Hid), bind_run.
    unfold MessageBus.register_message_type. rewrite in_world_invoke.
    by destruct (backend _ _ _).
  - unfold add_concurrency.
    rewrite bind_run, (_get_conf_present s _ _ Hid), bind_run.
    unfold MessageBus.add_concurrency. rewrite in_world_invoke.
    by destruct (backend _ _ _).
Qed.

(** ** The claims at concrete clients *)

Lemma get_str_message_list_valid_batch_witness :
  Forall (λ m, is_message m = true)
    [VKvPayload {| json := "{}" |}; VStr "hello"] ∧
  ∃ out,
    _get_str_message_list [VKvPayload {| json := "{}" |}; VStr "hello"] =
      Ok out ∧
    out = [VStr "{}"; VStr "hello"].
Proof.
  assert (Hall : Forall (λ m, is_message m = true)
                   [VKvPayload {| json := "{}" |}; VStr "hello"]).
  { repeat constructor. }
  split; [exact Hall|].
  destruct (get_str_message_list_valid_batch _ Hall)
    as (out & Hout & _ & _ & Hdoc & Hstr & _).
  exists out. split; [exact Hout|].
  cbn in Hout. injection Hout as <-. reflexivity.
Defined.

Lemma send_invalid_batch_sends_nothing_witness :
  Exists (λ m, is_message m = false) [VStr "a"; VInt 7; VStr "b"] ∧
  calls (world (send [VStr "a"; VInt 7; VStr "b"]
                  {| self := {| _client_conf := p1_conf |};
                     world := fake_world |}).2) = [] ∧
  (send [VStr "a"; VInt 7; VStr "b"]
     {| self := {| _client_conf := p1_conf |}; world := fake_world |}).1 =
    Raise (InvalidMessageFormat (VInt 7)).
Proof.
  assert (Hex : Exists (λ m, is_message m = false)
                  [VStr "a"; VInt 7; VStr "b"]).
  { apply Exists_cons_tl, Exists_cons_hd. reflexivity. }
  split; [exact Hex|].
  destruct (send_invalid_batch_sends_nothing
              {| self := {| _client_conf := p1_conf |}; world := fake_world |}
              _ Hex) as (_ & Hcalls & _).
  split; [exact Hcalls|]. reflexivity.
Defined.

Lemma admin_send_missing_message_type_witness :
  MessageBusAdmin (VStr "a1") fake_world =
    (Ok {| _client_conf := a1_conf |}, world_after_init "admin" a1_conf) ∧
  ∃ w3,
    send [VStr "hello"]
      {| self := {| _client_conf := a1_conf |};
         world := world_after_init "admin" a1_conf |} =
      (Raise (ConfigKeyMissing "message_type" a1_conf),
       {| self := {| _client_conf := a1_conf |}; world := w3 |}) ∧
    calls w3 = [InitClient "admin" a1_conf].
Proof.
  assert (Hc : MessageBusAdmin (VStr "a1") fake_world =
                 (Ok {| _client_conf := a1_conf |},
                  world_after_init "admin" a1_conf)) by reflexivity.
  split; [exact Hc|].
  destruct (admin_send_missing_message_type _ _ _ _ [VStr "hello"]
              (world_after_init "admin" a1_conf) Hc)
    as (_ & w3 & Hsend & Hcalls & _).
  exists w3. split; [exact Hsend|exact Hcalls].
Defined.

Lemma producer_send_forwards_batch_witness :
  (MessageProducer (VStr "p1") (VStr "Alert") (Some (VStr "sync")) fake_world =
     (Ok {| _client_conf := p1_conf |}, world_after_init "producer" p1_conf) ∧
   Forall (λ m, is_message m = true) [VStr "hello"]) ∧
  send [VStr "hello"]
    {| self := {| _client_conf := p1_conf |};
       world := world_after_init "producer" p1_conf |} =
    (Ok VNone,
     {| self := {| _client_conf := p1_conf |};
        world :=
          {| backend := fake_backend;
             calls :=
               [InitClient "producer" p1_conf;
                Send (VStr "p1") (VStr "Alert") (VStr "sync") [VStr "hello"]];
             log := log (world_after_init "producer" p1_conf) |} |}) ∧
  calls (world (send [VStr "hello"]
                  (run_ops [op_send [VStr "first"]; op_receive None]
                     {| self := {| _client_conf := p1_conf |};
                        world := world_after_init "producer" p1_conf |})).2) =
    [InitClient "producer" p1_conf;
     Send (VStr "p1") (VStr "Alert") (VStr "sync") [VStr "first"];
     Receive (VStr "p1") VNone;
     Send (VStr "p1") (VStr "Alert") (VStr "sync") [VStr "hello"]].
Proof.
  assert (Hc : MessageProducer (VStr "p1") (VStr "Alert") (Some (VStr "sync"))
                 fake_world =
                 (Ok {| _client_conf := p1_conf |},
                  world_after_init "producer" p1_conf)) by reflexivity.
  assert (Hall : Forall (λ m, is_message m = true) [VStr "hello"]).
  { repeat constructor. }
  split; [split; [exact Hc|exact Hall]|].
  destruct (producer_send_forwards_batch _ _ _ _ _ _ _ Hc Hall)
    as (Hany & Hlater).
  split.
  - exact (Hany (world_after_init "producer" p1_conf)).
  - exact (proj1 (Hlater [op_send [VStr "first"]; op_receive None])).
Defined.

Lemma producer_default_method_is_None_witness :
  MessageProducer (VStr "p1") (VStr "Alert") None fake_world =
    (Ok {| _client_conf := p1_conf_no_method |},
     world_after_init "producer" p1_conf_no_method) ∧
  p1_conf_no_method !! "method" = Some VNone ∧
  ∃ w3,
    send [VStr "hello"]
      {| self := {| _client_conf := p1_conf_no_method |};
         world := world_after_init "producer" p1_conf_no_method |} =
      (Ok VNone,
       {| self := {| _client_conf := p1_conf_no_method |}; world := w3 |}) ∧
    calls w3 =
      [InitClient "producer" p1_conf_no_method;
       Send (VStr "p1") (VStr "Alert") VNone [VStr "hello"]].
Proof.
  assert (Hc : MessageProducer (VStr "p1") (VStr "Alert") None fake_world =
                 (Ok {| _client_conf := p1_conf_no_method |},
                  world_after_init "producer" p1_conf_no_method))
    by reflexivity.
  assert (Hall : Forall (λ m, is_message m = true) [VStr "hello"]).
  { repeat constructor. }
  split; [exact Hc|].
  destruct (producer_default_method_is_None _ _ _ _ _ Hc) as (Hm & Hsend).
  split; [exact Hm|].
  destruct (Hsend [VStr "hello"]
              (world_after_init "producer" p1_conf_no_method))
    as (_ & Hs).
  destruct (Hs Hall) as (r & w3 & Hrun & Hcalls & ->).
  exists w3. split; [exact Hrun|exact Hcalls].
Defined.

Lemma configuration_fixed_at_construction_witness :
  __init__ "producer" p1_conf fake_world =
    (Ok {| _client_conf := p1_conf |}, world_after_init "producer" p1_conf) ∧
  _client_conf
    (self (run_ops
             [op_send [VStr "hello"]; op_send [VInt 7]; op_receive None;
              op_register_message_type (VList []) (VInt 0); op_delete; op_ack]
             {| self := {| _client_conf := p1_conf |};
                world := world_after_init "producer" p1_conf |})) = p1_conf.
Proof.
  assert (Hc : __init__ "producer" p1_conf fake_world =
                 (Ok {| _client_conf := p1_conf |},
                  world_after_init "producer" p1_conf)) by reflexivity.
  split; [exact Hc|].
  destruct (configuration_fixed_at_construction _ _ _ _ _
              [op_send [VStr "hello"]; op_send [VInt 7]; op_receive None;
               op_register_message_type (VList []) (VInt 0); op_delete; op_ack]
              Hc) as (_ & _ & Hconf & _).
  exact Hconf.
Defined.

Lemma register_and_concurrency_forward_arguments_witness :
  a1_conf !! "client_id" = Some (VStr "a1") ∧
  calls (world (register_message_type (VList [VStr "A"; VStr "A"]) (VInt 0)
                  {| self := {| _client_conf := a1_conf |};
                     world := fake_world |}).2) =
    [RegisterMessageType (VStr "a1") (VList [VStr "A"; VStr "A"]) (VInt 0)] ∧
  calls (world (add_concurrency (VStr "A") (VInt (-3))
                  {| self := {| _client_conf := a1_conf |};
                     world := fake_world |}).2) =
    [AddConcurrency (VStr "a1") (VStr "A") (VInt (-3))].
Proof.
  assert (Hid : a1_conf !! "client_id" = Some (VStr "a1")) by reflexivity.
  split; [exact Hid|].
  destruct (register_and_concurrency_forward_arguments
              {| self := {| _client_conf := a1_conf |}; world := fake_world |}
              (VStr "a1") [VStr "A"; VStr "A"] 0 (VStr "A") (-3) Hid)
    as (Hreg & Hadd).
  split; [by rewrite Hreg|by rewrite Hadd].
Defined.

Lemma construction_calls_backend_keys_checked_on_read_witness :
  (∃ k, k ∈ keys_read (op_send [VStr "hello"]) ∧
        p1_conf_no_message_type !! k = None) ∧
  ∃ k w3,
    run_op (op_send [VStr "hello"])
      {| self := {| _client_conf := p1_conf_no_message_type |};
         world := world_after_init "producer" p1_conf_no_message_type |} =
      (Raise (ConfigKeyMissing k p1_conf_no_message_type),
       {| self := {| _client_conf := p1_conf_no_message_type |};
          world := w3 |}) ∧
    calls w3 = [InitClient "producer" p1_conf_no_message_type].
Proof.
  assert (Hmiss : ∃ k, k ∈ keys_read (op_send [VStr "hello"]) ∧
                       p1_conf_no_message_type !! k = None).
  { exists "message_type". split; [apply list_elem_of_here|reflexivity]. }
  split; [exact Hmiss|].
  destruct (construction_calls_backend_keys_checked_on_read producer
              p1_conf_no_message_type fake_world) as (_ & _ & Hop).
  destruct (Hop (op_send [VStr "hello"])
              (world_after_init "producer" p1_conf_no_message_type) Hmiss)
    as (k & w3 & _ & _ & Hrun & Hcalls).
  exists k, w3. split; [exact Hrun|exact Hcalls].
Defined.

(** C4, as stated, fails: a producer configuration without [message_type]
    lacks a key of the role's set, and constructing a client with it calls
    the backend's [init_client]. *)
Lemma construction_with_missing_key_calls_backend :
  "message_type" ∈ required_keys producer ∧
  p1_conf_no_message_type !! "message_type" = None ∧
  calls (__init__ (client_type_of producer) p1_conf_no_message_type
           fake_world).2 =
    [InitClient "producer" p1_conf_no_message_type] ∧
  calls (__init__ (client_type_of producer) p1_conf_no_message_type
           fake_world).2 ≠ calls fake_world.
Proof.
  split; [cbn; set_solver|].
  split; [reflexivity|].
  split; [reflexivity|].
  rewrite init_calls. cbn. discriminate.
Qed.

(** A backend that refuses the client makes the construction raise what the
    backend raised: no instance is returned, and the refused call is the
    only one made. *)
Example construction_refused :
  __init__ "producer" p1_conf refusing_world =
    (Raise (Exception "BackendInitError" []),
     {| backend := backend refusing_world;
        calls := [InitClient "producer" p1_conf];
        log := [] |}).
Proof. reflexivity. Qed.

(** ** Further properties of the methods *)

Lemma _get_conf_absent_state (s : State) (key : string) :
  _client_conf (self s) !! key = None →
  _get_conf key s =
    (Raise (ConfigKeyMissing key (_client_conf (self s))),
     {| self := self s;
        world := {| backend := backend (world s);
                    calls := calls (world s);
                    log := log (world s) ++
                      [missing_key_record key (_client_conf (self s))] |} |}).
Proof.
  intros Hv. unfold _get_conf. rewrite bind_run. cbn.
  rewrite bool_decide_eq_true_2 by by apply not_elem_of_dom.
  reflexivity.
Qed.

(** X1. A method reads its keys in a fixed order ([send]: [message_type],
    [method], [client_id]; [delete]: [message_type], [client_id]; the others
    [client_id] alone) and stops at the first one that is missing: it raises
    the missing-key error for that key, has made no call to the backend, and
    has written one error record to the log. *)
Theorem first_missing_key_is_reported (op : operation) (s : State)
    (pre post : list string) (k : string) :
  keys_read op = pre ++ k :: post →
  (∀ k', k' ∈ pre → is_Some (_client_conf (self s) !! k')) →
  _client_conf (self s) !! k = None →
  run_op op s =
    (Raise (ConfigKeyMissing k (_client_conf (self s))),
     {| self := self s;
        world := {| backend := backend (world s);
                    calls := calls (world s);
                    log := log (world s) ++
                      [missing_key_record k (_client_conf (self s))] |} |}).
Proof.
  intros Hsplit Hpre Hnone.
  destruct op; cbn [keys_read run_op] in *;
    (destruct pre as [|k1 [|k2 [|k3 pre]]]; simplify_eq/=);
    unfold list_message_types, register_message_type, deregister_message_type,
      add_concurrency, send, delete, set_message_type_expire, receive, ack;
    repeat (rewrite bind_run;
            first
              [ rewrite (_get_conf_absent_state s _ Hnone); reflexivity
              | lazymatch goal with
                | |- context [_get_conf ?key s] =>
                    let v := fresh "v" in
                    let Hv := fresh "Hv" in
                    destruct (Hpre key) as [v Hv]; [set_solver|];
                    rewrite (_get_conf_present s key v Hv)
                end ]).
  by destruct pre.
Qed.

(** Unfolds a method whose keys are all present down to its call. *)
Ltac run_method :=
  repeat match goal with
         | H : _client_conf (self ?s) !! ?k = Some ?v
           |- context [(_get_conf ?k ≫= _) ?s] =>
             rewrite bind_run, (_get_conf_present s k v H)
         end.

(** X2. With [message_type] and [client_id] in the configuration, [delete]
    makes one call, [delete(client_id, message_type)], and returns what the
    backend returns or raises what it raises, unchanged. *)
Theorem delete_returns_backend_status (s : State)
    (message_type client_id : pyval) :
  _client_conf (self s) !! "message_type" = Some message_type →
  _client_conf (self s) !! "client_id" = Some client_id →
  delete s =
    (backend (world s) (calls (world s)) (Delete client_id message_type),
     {| self := self s;
        world := after_call (world s) (Delete client_id message_type) |}).
Proof. intros Hmt Hid. unfold delete. run_method. reflexivity. Qed.

(** X3. With [client_id] in the configuration, [receive] passes its timeout
    to the backend as given, and [None] when the caller gave none; it
    returns the messages of the backend as they are. *)
Theorem receive_forwards_timeout (s : State) (client_id : pyval)
    (timeout : option pyval) :
  _client_conf (self s) !! "client_id" = Some client_id →
  receive timeout s =
    (backend (world s) (calls (world s))
       (Receive client_id (match timeout with Some t => t | None => VNone end)),
     {| self := self s;
        world := after_call (world s)
          (Receive client_id
             (match timeout with Some t => t | None => VNone end)) |}).
Proof.
  intros Hid. unfold receive. cbn zeta. run_method. by destruct timeout.
Qed.

(** X4. With [client_id] in the configuration, [set_message_type_expire]
    makes one call with the message type and the keywords as given.  If the
    backend returns a status, the method writes one info record to the log
    and returns that status; if the backend raises, the method raises the
    same and the log says nothing of a success. *)
Theorem set_message_type_expire_logs_on_success (s : State)
    (client_id message_type : pyval) (kwargs : gmap string pyval) :
  _client_conf (self s) !! "client_id" = Some client_id →
  set_message_type_expire message_type kwargs s =
    match backend (world s) (calls (world s))
            (SetMessageTypeExpire client_id message_type kwargs) with
    | Ok status =>
        (Ok status,
         {| self := self s;
            world :=
              {| backend := backend (world s);
                 calls := calls (world s) ++
                   [SetMessageTypeExpire client_id message_type kwargs];
                 log := log (world s) ++
                   [{| level := INFO;
                       message := [Lit "Successfully updated ";
                                   Interp message_type;
                                   Lit " with new configuration."] |}] |} |})
    | Raise e =>
        (Raise e,
         {| self := self s;
            world := after_call (world s)
              (SetMessageTypeExpire client_id message_type kwargs) |})
    end.
Proof.
  intros Hid. unfold set_message_type_expire. run_method.
  rewrite bind_run. unfold MessageBus.set_message_type_expire.
  rewrite in_world_invoke. by destruct (backend _ _ _).
Qed.

(** X5. With [client_id] in the configuration, [list_message_types] returns
    the answer of the backend as it is, while [deregister_message_type] and
    [ack] return [None] whatever the backend returned; each makes one call
    with its arguments unchanged, and raises what the backend raises. *)
Theorem list_deregister_ack_call_backend (s : State)
    (client_id message_types : pyval) :
  _client_conf (self s) !! "client_id" = Some client_id →
  list_message_types s =
    (backend (world s) (calls (world s)) (ListMessageTypes client_id),
     {| self := self s;
        world := after_call (world s) (ListMessageTypes client_id) |}) ∧
  deregister_message_type message_types s =
    (match backend (world s) (calls (world s))
             (DeregisterMessageType client_id message_types) with
     | Ok _ => Ok VNone
     | Raise e => Raise e
     end,
     {| self := self s;
        world := after_call (world s)
          (DeregisterMessageType client_id message_types) |}) ∧
  ack s =
    (match backend (world s) (calls (world s)) (Ack client_id) with
     | Ok _ => Ok VNone
     | Raise e => Raise e
     end,
     {| self := self s; world := after_call (world s) (Ack client_id) |}).
Proof.
  intros Hid. split_and!.
  - unfold list_message_types. run_method. reflexivity.
  - unfold deregister_message_type. run_method. rewrite bind_run.
    unfold MessageBus.deregister_message_type. rewrite in_world_invoke.
    by destruct (backend _ _ _).
  - unfold ack. run_method. rewrite bind_run.
    unfold MessageBus.ack. rewrite in_world_invoke.
    by destruct (backend _ _ _).
Qed.

(** X6. [send] does not skip an empty batch: with its three keys present it
    calls the backend's [send] once, with an empty list of messages. *)
Theorem send_empty_batch_calls_backend (s : State)
    (message_type method client_id : pyval) :
  _client_conf (self s) !! "message_type" = Some message_type →
  _client_conf (self s) !! "method" = Some method →
  _client_conf (self s) !! "client_id" = Some client_id →
  send [] s =
    (match backend (world s) (calls (world s))
             (Send client_id message_type method []) with
     | Ok _ => Ok VNone
     | Raise e => Raise e
     end,
     {| self := self s;
        world := after_call (world s)
          (Send client_id message_type method []) |}).
Proof.
  intros Hmt Hm Hid.
  by rewrite (send_with_keys s [] message_type method client_id Hmt Hm Hid).
Qed.

(** ** Further properties of the conversion *)

Lemma valid_or_invalid (messages : list pyval) :
  Forall (λ m, is_message m = true) messages ∨
  Exists (λ m, is_message m = false) messages.
Proof.
  induction messages as [|m ms [IH|IH]].
  - left. constructor.
  - destruct (is_message m) eqn:Hm.
    + left. by constructor.
    + right. by apply Exists_cons_hd.
  - right. by apply Exists_cons_tl.
Qed.

Lemma get_str_message_list_cases (messages : list pyval) :
  (Forall (λ m, is_message m = true) messages ∧
   _get_str_message_list messages = Ok (to_str <$> messages)) ∨
  (∃ pre bad post,
     messages = pre ++ bad :: post ∧
     Forall (λ m, is_message m = true) pre ∧ is_message bad = false ∧
     _get_str_message_list messages = Raise (InvalidMessageFormat bad)).
Proof.
  destruct (valid_or_invalid messages) as [Hall|Hex].
  - left. split; [done|]. apply (loop_all_valid messages [] Hall).
  - right. destruct (split_at_first_invalid messages Hex)
      as (pre & bad & post & -> & Hpre & Hbad).
    exists pre, bad, post. split_and!; try done.
    apply (loop_first_invalid pre post [] bad Hpre Hbad).
Qed.

(** X7. The conversion returns a list only for a batch of documents and
    strings, and then the list of their strings; on any other batch it
    raises the invalid-format error for the first element that is neither,
    whatever valid or invalid elements come after it. *)
Theorem get_str_message_list_characterised (messages : list pyval) :
  (∀ out, _get_str_message_list messages = Ok out ↔
          Forall (λ m, is_message m = true) messages ∧
          out = to_str <$> messages) ∧
  (∀ e, _get_str_message_list messages = Raise e ↔
        ∃ pre bad post,
          messages = pre ++ bad :: post ∧
          Forall (λ m, is_message m = true) pre ∧ is_message bad = false ∧
          e = InvalidMessageFormat bad).
Proof.
  destruct (get_str_message_list_cases messages)
    as [[Hall Hok]|(pre & bad & post & Hsplit & Hpre & Hbad & Hraise)].
  - rewrite Hok. split.
    + intros out. split; [by intros [= <-]|by intros [_ ->]].
    + intros e. split; [done|].
      intros (pre & bad & post & -> & _ & Hbad & _).
      apply Forall_app in Hall as [_ Hall].
      apply Forall_cons in Hall as [Hbad' _]. congruence.
  - rewrite Hraise. split.
    + intros out. split; [done|]. intros [Hall _]. rewrite Hsplit in Hall.
      apply Forall_app in Hall as [_ Hall].
      apply Forall_cons in Hall as [Hbad' _]. congruence.
    + intros e. split.
      * intros [= <-]. by exists pre, bad, post.
      * intros (pre' & bad' & post' & Hsplit' & Hpre' & Hbad' & ->).
        rewrite Hsplit' in Hraise. unfold _get_str_message_list in Hraise.
        rewrite (loop_first_invalid pre' post' [] bad' Hpre' Hbad') in Hraise.
        by injection Hraise as <-.
Qed.

Lemma to_str_of_strings (l : list pyval) :
  Forall (λ m, isinstance_str m = true) l → to_str <$> l = l.
Proof.
  induction 1 as [|m ms Hm _ IH]; [done|].
  cbn. by rewrite IH, (to_str_of_str m Hm).
Qed.

(** X8. Converting twice is converting once: the list the conversion
    returns is a batch it returns unchanged. *)
Theorem get_str_message_list_idempotent (messages out : list pyval) :
  _get_str_message_list messages = Ok out →
  _get_str_message_list out = Ok out.
Proof.
  intros Hout.
  destruct (get_str_message_list_cases messages)
    as [[Hall Hok]|(pre & bad & post & _ & _ & _ & Hraise)]; [|congruence].
  rewrite Hok in Hout. injection Hout as <-.
  assert (Hstr : Forall (λ m, isinstance_str m = true) (to_str <$> messages)).
  { rewrite Forall_fmap. eapply Forall_impl; [exact Hall|].
    intros m Hm. by apply to_str_is_str. }
  unfold _get_str_message_list. rewrite loop_all_valid.
  - cbn. f_equal. by apply to_str_of_strings.
  - eapply Forall_impl; [exact Hstr|]. intros m Hm.
    unfold is_message. rewrite Hm. by destruct (isinstance_KvPayload m).
Qed.

(** X9. The conversion of two batches put end to end is the conversion of
    the first followed by that of the second; it raises what the first
    raises, and otherwise what the second raises. *)
Theorem get_str_message_list_app (batch1 batch2 : list pyval) :
  _get_str_message_list (batch1 ++ batch2) =
    match _get_str_message_list batch1 with
    | Raise e => Raise e
    | Ok out1 =>
        match _get_str_message_list batch2 with
        | Raise e => Raise e
        | Ok out2 => Ok (out1 ++ out2)
        end
    end.
Proof.
  destruct (get_str_message_list_cases batch1)
    as [[Hall1 ->]|(pre & bad & post & -> & Hpre & Hbad & ->)].
  - destruct (get_str_message_list_cases batch2)
      as [[Hall2 ->]|(pre & bad & post & -> & Hpre & Hbad & ->)].
    + unfold _get_str_message_list. rewrite loop_all_valid.
      * cbn. by rewrite fmap_app.
      * by apply Forall_app.
    + unfold _get_str_message_list. rewrite app_assoc.
      apply loop_first_invalid; [by apply Forall_app|done].
  - unfold _get_str_message_list. rewrite <- app_assoc. cbn.
    by apply loop_first_invalid.
Qed.

(** ** Further properties of the roles *)

(** X10. A consumer built with an offset makes one call, [init_client] with
    the client type "consumer" and its five keywords, and holds those five
    keys and no other, each with the argument given for it; the offset is
    stored as given, whatever its value. *)
Theorem consumer_configuration (consumer_id consumer_group auto_ack
    message_types offset : pyval) (w w1 : World) (c : MessageBusClient) :
  MessageConsumer consumer_id consumer_group auto_ack message_types
    (Some offset) w = (Ok c, w1) →
  _client_conf c !! "client_id" = Some consumer_id ∧
  _client_conf c !! "consumer_group" = Some consumer_group ∧
  _client_conf c !! "message_types" = Some message_types ∧
  _client_conf c !! "auto_ack" = Some auto_ack ∧
  _client_conf c !! "offset" = Some offset ∧
  dom (_client_conf c) =
    {[ "client_id"; "consumer_group"; "message_types"; "auto_ack";
       "offset" ]} ∧
  calls w1 = calls w ++ [InitClient "consumer" (_client_conf c)].
Proof.
  intros Hc.
  destruct (consumer_conf _ _ _ _ _ _ _ _ Hc)
    as (H1 & H2 & H3 & H4 & H5 & Hdom).
  split_and!; try done.
  cbn [MessageConsumer] in Hc.
  pose proof (init_calls "consumer"
    (<["client_id" := consumer_id]>
       (<["consumer_group" := consumer_group]>
          (<["message_types" := message_types]>
             (<["auto_ack" := auto_ack]> {[ "offset" := offset ]})))) w)
    as Hcalls.
  rewrite Hc in Hcalls. cbn in Hcalls. rewrite Hcalls.
  by rewrite (init_conf _ _ _ _ _ Hc).
Qed.

(** X11. An administrator and a consumer have no key [message_type] (the
    consumer has [message_types]), so on either of them [send], with any
    batch, and [delete] raise the missing-key error for [message_type] and
    make no call to the backend. *)
Theorem admin_and_consumer_cannot_send_or_delete (c : MessageBusClient)
    (w w1 : World) (client_id consumer_group auto_ack message_types
    offset : pyval) (messages : list pyval) (w2 : World) :
  MessageBusAdmin client_id w = (Ok c, w1) ∨
  MessageConsumer client_id consumer_group auto_ack message_types
    (Some offset) w = (Ok c, w1) →
  send messages {| self := c; world := w2 |} =
    (Raise (ConfigKeyMissing "message_type" (_client_conf c)),
     {| self := c;
        world := {| backend := backend w2; calls := calls w2;
                    log := log w2 ++
                      [missing_key_record "message_type"
                         (_client_conf c)] |} |}) ∧
  delete {| self := c; world := w2 |} =
    (Raise (ConfigKeyMissing "message_type" (_client_conf c)),
     {| self := c;
        world := {| backend := backend w2; calls := calls w2;
                    log := log w2 ++
                      [missing_key_record "message_type"
                         (_client_conf c)] |} |}).
Proof.
  intros Hc.
  assert (Hnone : _client_conf c !! "message_type" = None).
  { destruct Hc as [Hc|Hc]; apply init_conf in Hc; rewrite Hc; done. }
  split.
  - unfold send. rewrite bind_run.
    by rewrite (_get_conf_absent_state {| self := c; world := w2 |} _ Hnone).
  - unfold delete. rewrite bind_run.
    by rewrite (_get_conf_absent_state {| self := c; world := w2 |} _ Hnone).
Qed.

Lemma constructed_client_id (client_id : pyval) (c : MessageBusClient) :
  constructed client_id c → _client_conf c !! "client_id" = Some client_id.
Proof.
  intros (w & w1 & [Hc|[(mt & m & Hc)|(grp & ack & mts & off & Hc)]]);
    apply init_conf in Hc; rewrite Hc; by simplify_map_eq.
Qed.

Lemma client_id_operation_calls (op : operation) (s : State)
    (client_id : pyval) :
  keys_read op = ["client_id"] →
  _client_conf (self s) !! "client_id" = Some client_id →
  ∃ call,
    calls (world (run_op op s).2) = calls (world s) ++ [call] ∧
    call_client_id call = Some client_id ∧
    backend (world (run_op op s).2) = backend (world s).
Proof.
  intros Hkeys Hid.
  destruct op; cbn [keys_read] in Hkeys; try discriminate; cbn [run_op];
    unfold list_message_types, register_message_type, deregister_message_type,
      add_concurrency, set_message_type_expire, receive, ack;
    cbn zeta; run_method;
    cbv [mbind M_bind bind in_world mret M_ret ret MessageBus.invoke
         MessageBus.list_message_types MessageBus.register_message_type
         MessageBus.deregister_message_type MessageBus.add_concurrency
         MessageBus.set_message_type_expire MessageBus.receive MessageBus.ack
         Log.info Log.write];
    destruct (backend (world s) (calls (world s)) _); cbn;
    eexists; split_and!; reflexivity.
Qed.

(** X12. Every instance the three subclasses return has the key
    [client_id], so the methods that read no other key
    ([list_message_types], [register_message_type],
    [deregister_message_type], [add_concurrency], [set_message_type_expire],
    [receive], [ack]) reach the backend on every role: called on an
    administrator, a producer or a consumer, each makes exactly one call,
    which carries the identifier the instance was built with. *)
Theorem client_id_methods_reach_backend_on_every_role (client_id : pyval)
    (c : MessageBusClient) (op : operation) (w : World) :
  constructed client_id c →
  keys_read op = ["client_id"] →
  ∃ call,
    calls (world (run_op op {| self := c; world := w |}).2) =
      calls w ++ [call] ∧
    call_client_id call = Some client_id.
Proof.
  intros Hc Hkeys. apply constructed_client_id in Hc.
  destruct (client_id_operation_calls op {| self := c; world := w |}
              client_id Hkeys Hc) as (call & Hcalls & Hcid & _).
  by exists call.
Qed.

(** ** The backend's history over a run *)

Section extends_world.
Local Lemma extends_ret {A : Type} (a : A) :
  extends_world 0 (mret a : M State A).
Proof. intros s. exists [], []. by rewrite !app_nil_r. Qed.

Local Lemma extends_raise {A : Type} (e : exn) :
  extends_world 0 (raise e : M State A).
Proof. intros s. exists [], []. by rewrite !app_nil_r. Qed.

Local Lemma extends_lift_result {A : Type} (r : result A) :
  extends_world 0 (lift_result r : M State A).
Proof. intros s. exists [], []. by rewrite !app_nil_r. Qed.

Local Lemma extends_get_self : extends_world 0 get_self.
Proof. intros s. exists [], []. by rewrite !app_nil_r. Qed.

Local Lemma extends_invoke (c : bus_call) :
  extends_world 1 (in_world (MessageBus.invoke c)).
Proof. intros s. exists [c], []. by rewrite app_nil_r. Qed.

Local Lemma extends_log (lvl : log_level) (msg : list fpart) :
  extends_world 0 (in_world (Log.write lvl msg)).
Proof.
  intros s. exists [], [{| level := lvl; message := msg |}].
  by rewrite app_nil_r.
Qed.

Local Lemma extends_bind {A B : Type} (n k : nat) (m : M State A)
    (f : A → M State B) :
  extends_world n m → (∀ a, extends_world k (f a)) →
  extends_world (n + k) (m ≫= f).
Proof.
  intros Hm Hf s. rewrite bind_run.
  destruct (Hm s) as (new1 & lines1 & Hc1 & Hn1 & Hl1 & Hb1).
  destruct (m s) as [[a|e] s1]; cbn in *.
  - destruct (Hf a s1) as (new2 & lines2 & Hc2 & Hn2 & Hl2 & Hb2).
    exists (new1 ++ new2), (lines1 ++ lines2).
    rewrite Hc2, Hc1, Hl2, Hl1, Hb2, Hb1, !app_assoc, length_app.
    split_and!; [done|lia|done|done].
  - exists new1, lines1. split_and!; [done|lia|done|done].
Qed.

Local Lemma extends_weaken {A : Type} (n k : nat) (m : M State A) :
  extends_world n m → n ≤ k → extends_world k m.
Proof.
  intros Hm Hle s. destruct (Hm s) as (new & lines & Hc & Hn & Hl & Hb).
  exists new, lines. split_and!; [done|lia|done|done].
Qed.

Local Lemma extends_get_conf (key : string) : extends_world 0 (_get_conf key).
Proof.
  unfold _get_conf.
  apply (extends_bind 0 0); [apply extends_get_self|].
  intros c. case_bool_decide.
  - apply (extends_bind 0 0); [apply extends_log|].
    intros _. apply extends_raise.
  - apply extends_lift_result.
Qed.

Local Ltac extends :=
  repeat first
    [ apply extends_get_conf
    | apply extends_invoke
    | apply extends_log
    | apply extends_ret
    | apply extends_lift_result
    | eapply extends_bind; [|intros ?] ].

Lemma run_op_extends_world (op : operation) : extends_world 1 (run_op op).
Proof.
  destruct op; cbn [run_op];
    unfold list_message_types, register_message_type,
      deregister_message_type, add_concurrency, send, delete,
      set_message_type_expire, receive, ack; cbn zeta;
    (eapply extends_weaken; [extends|cbn; lia]).
Qed.
End extends_world.

(** X13. Every method makes at most one call to the backend.  Over a run
    of any operations, failed or not, the calls recorded before are kept in
    front of the new ones, which are at most as many as the operations; the
    log only grows at its end; and the backend is the same. *)
Theorem run_ops_history_append_only (ops : list operation) (s : State) :
  ∃ new lines,
    calls (world (run_ops ops s)) = calls (world s) ++ new ∧
    length new ≤ length ops ∧
    log (world (run_ops ops s)) = log (world s) ++ lines ∧
    backend (world (run_ops ops s)) = backend (world s).
Proof.
  revert s. induction ops as [|op ops IH]; intros s; cbn [run_ops].
  - exists [], []. by rewrite !app_nil_r.
  - destruct (run_op_extends_world op s)
      as (new1 & lines1 & Hc1 & Hn1 & Hl1 & Hb1).
    destruct (IH (run_op op s).2) as (new2 & lines2 & Hc2 & Hn2 & Hl2 & Hb2).
    exists (new1 ++ new2), (lines1 ++ lines2).
    rewrite Hc2, Hc1, Hl2, Hl1, Hb2, Hb1, !app_assoc, length_app. cbn.
    split_and!; [done|lia|done|done].
Qed.

(** ** Construction by the subclasses *)

(** X14. Each subclass makes exactly one call when it builds an instance,
    [init_client] with its own client type ("admin", "producer",
    "consumer") and the keywords of its role.  If the backend raises, the
    constructor raises the same exception, returns no instance, and writes
    nothing to the log. *)
Theorem subclasses_call_init_client (client_id message_type consumer_group
    auto_ack message_types offset : pyval) (method : option pyval)
    (w : World) :
  calls (MessageBusAdmin client_id w).2 =
    calls w ++ [InitClient "admin" {[ "client_id" := client_id ]}] ∧
  calls (MessageProducer client_id message_type method w).2 =
    calls w ++
      [InitClient "producer"
         (<["client_id" := client_id]>
            (<["message_type" := message_type]>
               {[ "method" := match method with
                               | Some m => m
                               | None => VNone
                               end ]}))] ∧
  calls (MessageConsumer client_id consumer_group auto_ack message_types
           (Some offset) w).2 =
    calls w ++
      [InitClient "consumer"
         (<["client_id" := client_id]>
            (<["consumer_group" := consumer_group]>
               (<["message_types" := message_types]>
                  (<["auto_ack" := auto_ack]> {[ "offset" := offset ]}))))] ∧
  (∀ (client_type : string) (client_conf : gmap string pyval) (e : exn),
     backend w (calls w) (InitClient client_type client_conf) = Raise e →
     __init__ client_type client_conf w =
       (Raise e, after_call w (InitClient client_type client_conf))).
Proof.
  split_and!.
  - apply init_calls.
  - unfold MessageProducer. cbn zeta. rewrite init_calls. by destruct method.
  - apply init_calls.
  - intros client_type client_conf e He. by rewrite init_runs, He.
Qed.

(** ** What reaches the backend's [send] *)

Lemma keys_missing_or_present (conf : gmap string pyval)
    (keys : list string) :
  (∃ k, k ∈ keys ∧ conf !! k = None) ∨
  (∀ k, k ∈ keys → is_Some (conf !! k)).
Proof.
  induction keys as [|k ks [(k' & Hk' & Hnone)|IH]].
  - right. by intros k ?%elem_of_nil.
  - left. exists k'. split; [by apply list_elem_of_further|done].
  - destruct (conf !! k) as [v|] eqn:Hl.
    + right. intros k' [->|Hk']%elem_of_cons; [by eexists|by apply IH].
    + left. exists k. split; [apply list_elem_of_here|done].
Qed.

Lemma run_op_sends_strings (op : operation) (s : State) :
  Forall sends_strings (calls (world s)) →
  Forall sends_strings (calls (world (run_op op s).2)).
Proof.
  intros Hold.
  destruct (keys_missing_or_present (_client_conf (self s)) (keys_read op))
    as [Hmiss|Hkey].
  { destruct (run_op_missing_key op s Hmiss)
      as (k & w' & _ & _ & -> & _ & Hcalls).
    cbn. by rewrite Hcalls. }
  destruct op; cbn [keys_read run_op] in *.
  5: { destruct (Hkey "message_type") as [mt Hmt]; [set_solver|].
       destruct (Hkey "method") as [m Hm]; [set_solver|].
       destruct (Hkey "client_id") as [cid Hid]; [set_solver|].
       rewrite (send_with_keys s messages mt m cid Hmt Hm Hid).
       destruct (get_str_message_list_cases messages)
         as [[Hvalid ->]|(pre & bad & post & _ & _ & _ & ->)]; [|done].
       cbn. apply Forall_app. split; [done|].
       apply Forall_singleton. cbn. rewrite Forall_fmap.
       eapply Forall_impl; [exact Hvalid|].
       intros msg Hmsg. by apply to_str_is_str. }
  all: destruct (Hkey "client_id") as [cid Hid]; [set_solver|].
  all: try (destruct (Hkey "message_type") as [mt Hmt]; [set_solver|]).
  all: unfold list_message_types, register_message_type,
         deregister_message_type, add_concurrency, delete,
         set_message_type_expire, receive, ack; cbn zeta; run_method;
       cbv [mbind M_bind bind in_world mret M_ret ret MessageBus.invoke
            MessageBus.list_message_types MessageBus.register_message_type
            MessageBus.deregister_message_type MessageBus.add_concurrency
            MessageBus.delete MessageBus.set_message_type_expire
            MessageBus.receive MessageBus.ack Log.info Log.write];
       destruct (backend (world s) (calls (world s)) _); cbn;
       (apply Forall_app; split; [done|]); by apply Forall_singleton.
Qed.

(** X15. The backend's [send] never receives anything but strings: if the
    calls recorded so far carry strings only, so do the calls recorded after
    any run of operations, on any client and with any batches, valid or
    not. *)
Theorem backend_send_receives_strings_only (ops : list operation)
    (s : State) :
  Forall sends_strings (calls (world s)) →
  Forall sends_strings (calls (world (run_ops ops s))).
Proof.
  revert s. induction ops as [|op ops IH]; intros s Hold; cbn [run_ops].
  - done.
  - by apply IH, run_op_sends_strings.
Qed.

(** X16. On a producer [delete] reaches the backend: it makes the call
    [delete(producer_id, message_type)] with the identifier and the message
    type the producer was built with, and returns the status of the backend
    as it is. *)
Theorem producer_delete_reaches_backend (producer_id message_type : pyval)
    (method : option pyval) (w w1 : World) (c : MessageBusClient)
    (w2 : World) :
  MessageProducer producer_id message_type method w = (Ok c, w1) →
  delete {| self := c; world := w2 |} =
    (backend w2 (calls w2) (Delete producer_id message_type),
     {| self := c; world := after_call w2 (Delete producer_id message_type) |}).
Proof.
  intros Hc.
  destruct (producer_conf _ _ _ _ _ _ Hc) as (Hid & Hmt & _ & _).
  unfold delete.
  rewrite bind_run, (_get_conf_present {| self := c; world := w2 |} _ _ Hmt).
  rewrite bind_run, (_get_conf_present {| self := c; world := w2 |} _ _ Hid).
  reflexivity.
Qed.

(** ** The further properties at concrete clients *)

Lemma first_missing_key_is_reported_witness :
  (keys_read (op_send [VStr "hello"]) =
     ["message_type"] ++ "method" :: ["client_id"] ∧
   (∀ k', k' ∈ ["message_type"] →
          is_Some (only_message_type_conf !! k')) ∧
   only_message_type_conf !! "method" = None) ∧
  (run_op (op_send [VStr "hello"])
     {| self := {| _client_conf := only_message_type_conf |};
        world := fake_world |}).1 =
    Raise (ConfigKeyMissing "method" only_message_type_conf).
Proof.
  assert (Hpre : ∀ k', k' ∈ ["message_type"] →
                       is_Some (only_message_type_conf !! k')).
  { intros k' Hk'. apply list_elem_of_singleton in Hk' as ->. by eexists. }
  split; [split_and!; [reflexivity|exact Hpre|reflexivity]|].
  by rewrite (first_missing_key_is_reported (op_send [VStr "hello"])
                {| self := {| _client_conf := only_message_type_conf |};
                   world := fake_world |}
                ["message_type"] ["client_id"] "method"
                eq_refl Hpre eq_refl).
Defined.

Lemma delete_returns_backend_status_witness :
  (p1_conf !! "message_type" = Some (VStr "Alert") ∧
   p1_conf !! "client_id" = Some (VStr "p1")) ∧
  delete {| self := {| _client_conf := p1_conf |}; world := fake_world |} =
    (Ok VNone,
     {| self := {| _client_conf := p1_conf |};
        world := after_call fake_world (Delete (VStr "p1") (VStr "Alert")) |}).
Proof.
  split; [split; reflexivity|].
  exact (delete_returns_backend_status
           {| self := {| _client_conf := p1_conf |}; world := fake_world |}
           (VStr "Alert") (VStr "p1") eq_refl eq_refl).
Defined.

Lemma receive_forwards_timeout_witness :
  c1_conf !! "client_id" = Some (VStr "c1") ∧
  receive None {| self := {| _client_conf := c1_conf |}; world := fake_world |} =
    (Ok (VList []),
     {| self := {| _client_conf := c1_conf |};
        world := after_call fake_world (Receive (VStr "c1") VNone) |}).
Proof.
  split; [reflexivity|].
  exact (receive_forwards_timeout
           {| self := {| _client_conf := c1_conf |}; world := fake_world |}
           (VStr "c1") None eq_refl).
Defined.

Lemma set_message_type_expire_logs_on_success_witness :
  a1_conf !! "client_id" = Some (VStr "a1") ∧
  log (world (set_message_type_expire (VStr "Alert")
                {[ "expire_time_ms" := VInt 1000 ]}
                {| self := {| _client_conf := a1_conf |};
                   world := fake_world |}).2) =
    [{| level := INFO;
        message := [Lit "Successfully updated "; Interp (VStr "Alert");
                    Lit " with new configuration."] |}] ∧
  log (world (set_message_type_expire (VStr "Alert")
                {[ "expire_time_ms" := VInt 1000 ]}
                {| self := {| _client_conf := a1_conf |};
                   world := refusing_world |}).2) = [].
Proof.
  split; [reflexivity|]. split.
  - by rewrite (set_message_type_expire_logs_on_success
                  {| self := {| _client_conf := a1_conf |};
                     world := fake_world |}
                  (VStr "a1") (VStr "Alert")
                  {[ "expire_time_ms" := VInt 1000 ]} eq_refl).
  - by rewrite (set_message_type_expire_logs_on_success
                  {| self := {| _client_conf := a1_conf |};
                     world := refusing_world |}
                  (VStr "a1") (VStr "Alert")
                  {[ "expire_time_ms" := VInt 1000 ]} eq_refl).
Defined.

Lemma list_deregister_ack_call_backend_witness :
  a1_conf !! "client_id" = Some (VStr "a1") ∧
  list_message_types
    {| self := {| _client_conf := a1_conf |}; world := fake_world |} =
    (Ok (VList []),
     {| self := {| _client_conf := a1_conf |};
        world := after_call fake_world (ListMessageTypes (VStr "a1")) |}) ∧
  (ack {| self := {| _client_conf := a1_conf |}; world := fake_world |}).1 =
    Ok VNone.
Proof.
  split; [reflexivity|].
  destruct (list_deregister_ack_call_backend
              {| self := {| _client_conf := a1_conf |}; world := fake_world |}
              (VStr "a1") (VList [VStr "Alert"]) eq_refl)
    as (Hlist & _ & Hack).
  split; [exact Hlist|]. by rewrite Hack.
Defined.

Lemma send_empty_batch_calls_backend_witness :
  (p1_conf !! "message_type" = Some (VStr "Alert") ∧
   p1_conf !! "method" = Some (VStr "sync") ∧
   p1_conf !! "client_id" = Some (VStr "p1")) ∧
  send [] {| self := {| _client_conf := p1_conf |}; world := fake_world |} =
    (Ok VNone,
     {| self := {| _client_conf := p1_conf |};
        world := after_call fake_world
          (Send (VStr "p1") (VStr "Alert") (VStr "sync") []) |}).
Proof.
  split; [split_and!; reflexivity|].
  exact (send_empty_batch_calls_backend
           {| self := {| _client_conf := p1_conf |}; world := fake_world |}
           (VStr "Alert") (VStr "sync") (VStr "p1") eq_refl eq_refl eq_refl).
Defined.

Lemma get_str_message_list_idempotent_witness :
  _get_str_message_list [VKvPayload {| json := "{}" |}; VStr "hello"] =
    Ok [VStr "{}"; VStr "hello"] ∧
  _get_str_message_list [VStr "{}"; VStr "hello"] =
    Ok [VStr "{}"; VStr "hello"].
Proof.
  split; [reflexivity|].
  exact (get_str_message_list_idempotent
           [VKvPayload {| json := "{}" |}; VStr "hello"]
           [VStr "{}"; VStr "hello"] eq_refl).
Defined.

Lemma consumer_configuration_witness :
  MessageConsumer (VStr "c1") (VStr "g1") (VStr "False")
    (VList [VStr "Alert"]) (Some (VStr "latest")) fake_world =
    (Ok {| _client_conf := c1_conf |}, world_after_init "consumer" c1_conf) ∧
  c1_conf !! "offset" = Some (VStr "latest") ∧
  calls (world_after_init "consumer" c1_conf) =
    [InitClient "consumer" c1_conf].
Proof.
  assert (Hc : MessageConsumer (VStr "c1") (VStr "g1") (VStr "False")
                 (VList [VStr "Alert"]) (Some (VStr "latest")) fake_world =
                 (Ok {| _client_conf := c1_conf |},
                  world_after_init "consumer" c1_conf)) by reflexivity.
  split; [exact Hc|].
  destruct (consumer_configuration _ _ _ _ _ _ _ _ Hc)
    as (_ & _ & _ & _ & Hoff & _ & Hcalls).
  split; [exact Hoff|exact Hcalls].
Defined.

Lemma admin_and_consumer_cannot_send_or_delete_witness :
  (MessageBusAdmin (VStr "c1") fake_world =
     (Ok {| _client_conf := c1_conf |}, world_after_init "consumer" c1_conf) ∨
   MessageConsumer (VStr "c1") (VStr "g1") (VStr "False")
     (VList [VStr "Alert"]) (Some (VStr "latest")) fake_world =
     (Ok {| _client_conf := c1_conf |}, world_after_init "consumer" c1_conf)) ∧
  (send [VStr "hello"]
     {| self := {| _client_conf := c1_conf |};
        world := world_after_init "consumer" c1_conf |}).1 =
    Raise (ConfigKeyMissing "message_type" c1_conf) ∧
  (delete
     {| self := {| _client_conf := c1_conf |};
        world := world_after_init "consumer" c1_conf |}).1 =
    Raise (ConfigKeyMissing "message_type" c1_conf).
Proof.
  assert (Hc : MessageBusAdmin (VStr "c1") fake_world =
                 (Ok {| _client_conf := c1_conf |},
                  world_after_init "consumer" c1_conf) ∨
               MessageConsumer (VStr "c1") (VStr "g1") (VStr "False")
                 (VList [VStr "Alert"]) (Some (VStr "latest")) fake_world =
                 (Ok {| _client_conf := c1_conf |},
                  world_after_init "consumer" c1_conf)).
  { right. reflexivity. }
  split; [exact Hc|].
  destruct (admin_and_consumer_cannot_send_or_delete _ _ _ _ _ _ _ _
              [VStr "hello"] (world_after_init "consumer" c1_conf) Hc)
    as (Hsend & Hdelete).
  split; [by rewrite Hsend|by rewrite Hdelete].
Defined.

Lemma client_id_methods_reach_backend_on_every_role_witness :
  (constructed (VStr "a1") {| _client_conf := a1_conf |} ∧
   keys_read (op_receive None) = ["client_id"]) ∧
  ∃ call,
    calls (world (run_op (op_receive None)
                    {| self := {| _client_conf := a1_conf |};
                       world := fake_world |}).2) = [call] ∧
    call_client_id call = Some (VStr "a1").
Proof.
  assert (Hc : constructed (VStr "a1") {| _client_conf := a1_conf |}).
  { exists fake_world, (world_after_init "admin" a1_conf). left. reflexivity. }
  split; [split; [exact Hc|reflexivity]|].
  exact (client_id_methods_reach_backend_on_every_role (VStr "a1")
           {| _client_conf := a1_conf |} (op_receive None) fake_world
           Hc eq_refl).
Defined.

Lemma subclasses_call_init_client_witness :
  backend refusing_world (calls refusing_world) (InitClient "admin" a1_conf) =
    Raise (Exception "BackendInitError" []) ∧
  MessageBusAdmin (VStr "a1") refusing_world =
    (Raise (Exception "BackendInitError" []),
     after_call refusing_world (InitClient "admin" a1_conf)).
Proof.
  split; [reflexivity|].
  destruct (subclasses_call_init_client (VStr "a1") VNone VNone VNone VNone
              VNone None refusing_world) as (_ & _ & _ & Hrefused).
  exact (Hrefused "admin" a1_conf _ eq_refl).
Defined.

Lemma backend_send_receives_strings_only_witness :
  Forall sends_strings (calls fake_world) ∧
  Forall sends_strings
    (calls (world (run_ops
                     [op_send [VKvPayload {| json := "{}" |}; VStr "hello"];
                      op_send [VInt 7]; op_delete]
                     {| self := {| _client_conf := p1_conf |};
                        world := fake_world |}))).
Proof.
  assert (Hold : Forall sends_strings (calls fake_world)) by constructor.
  split; [exact Hold|].
  exact (backend_send_receives_strings_only
           [op_send [VKvPayload {| json := "{}" |}; VStr "hello"];
            op_send [VInt 7]; op_delete]
           {| self := {| _client_conf := p1_conf |}; world := fake_world |}
           Hold).
Defined.

Lemma producer_delete_reaches_backend_witness :
  MessageProducer (VStr "p1") (VStr "Alert") (Some (VStr "sync")) fake_world =
    (Ok {| _client_conf := p1_conf |}, world_after_init "producer" p1_conf) ∧
  delete {| self := {| _client_conf := p1_conf |};
            world := world_after_init "producer" p1_conf |} =
    (Ok VNone,
     {| self := {| _client_conf := p1_conf |};
        world := after_call (world_after_init "producer" p1_conf)
          (Delete (VStr "p1") (VStr "Alert")) |}).
Proof.
  assert (Hc : MessageProducer (VStr "p1") (VStr "Alert") (Some (VStr "sync"))
                 fake_world =
                 (Ok {| _client_conf := p1_conf |},
                  world_after_init "producer" p1_conf)) by reflexivity.
  split; [exact Hc|].
  exact (producer_delete_reaches_backend _ _ _ _ _ _
           (world_after_init "producer" p1_conf) Hc).
Defined.
